(** * AlignmentEnforcer: the file vault and the human-presence gate

    A shallow embedding of [constitution_lock.py] (class [ConstitutionLock])
    and [human_verify.py] (class [HumanVerify]).

    Python objects are records, methods are functions in a state-and-exception
    monad over the pair (object, world).  The world holds the file system and
    the sources of input the methods read: the clock, the random generators,
    standard input and, for every system call, whether it raises [OSError].

    Conventions of the embedding:
    - [str] and [bytes] are both [string]; a [str] stands for its encoding,
      so [password.encode()] is the identity;
    - the file system maps a path to a regular file (contents and mode);
      directories are not tracked.  The mode is recorded as [os.chmod] sets
      it and is not enforced: a refusal by the operating system, for whatever
      reason, is a fault of the world's [faults] list;
    - [print] is left out: standard output is not part of the state;
    - the [cryptography], [hashlib], [json] and formatting functions the code
      calls are the fields of the class [PyLib]. *)

From Stdlib Require Import ZArith NArith Floats Ascii String List DecimalString.
From stdpp Require Import gmap strings list.

(** ** The library functions the code calls *)

Inductive pyval :=
| VStr (s : string)
| VBool (b : bool)
| VInt (z : Z)
| VFloat (f : float).

(** A [dict] with [str] keys, in insertion order. *)
Definition pydict : Type := list (string * pyval).

Fixpoint dict_get (k : string) (d : pydict) : option pyval :=
  match d with
  | [] => None
  | (k', v) :: d' => if decide (k' = k) then Some v else dict_get k d'
  end.

Class PyLib := {
  (** [PBKDF2HMAC(algorithm=SHA256(), length, salt, iterations).derive(password)] *)
  pbkdf2_hmac_sha256 : N → string → N → string → string;
  (** [base64.urlsafe_b64encode] *)
  urlsafe_b64encode : string → string;
  (** [Fernet(key).encrypt(data)], with the time in seconds and the
      initialisation vector the library draws for the call. *)
  fernet_encrypt : string → Z → string → string → string;
  (** [Fernet(key).decrypt(token)]; [None] when it raises [InvalidToken]. *)
  fernet_decrypt : string → string → option string;
  (** [hashlib.sha256(data).hexdigest()] *)
  sha256_hexdigest : string → string;
  (** [json.dump(d, f, indent=2)]: the text written. *)
  json_dump : pydict → string;
  (** [datetime.isoformat], on a time in microseconds. *)
  isoformat : Z → string;
  (** [str(x)] and [int(x)] for a float [x]. *)
  float_str : float → string;
  float_int : float → Z
}.

(** [str(n)] for an integer [n]. *)
Definition int_str (n : Z) : string := NilEmpty.string_of_int (Z.to_int n).

(** What the proofs about passwords and keys assume of the cryptography:
    decryption undoes encryption, a token authenticates under one key only,
    and key derivation has no collisions. *)
Class IdealCrypto (L : PyLib) : Prop := {
  fernet_roundtrip : ∀ key now iv data,
    fernet_decrypt key (fernet_encrypt key now iv data) = Some data;
  fernet_authentic : ∀ key key' token data data',
    fernet_decrypt key token = Some data →
    fernet_decrypt key' token = Some data' → key = key';
  kdf_collision_free : ∀ salt salt' password password',
    urlsafe_b64encode (pbkdf2_hmac_sha256 32 salt 100000 password) =
    urlsafe_b64encode (pbkdf2_hmac_sha256 32 salt' 100000 password') →
    salt = salt' ∧ password = password'
}.

(** ** The world *)

Record file := File { f_data : string; f_mode : N }.

Record World := mkWorld {
  fs : gmap string file;      (** regular files by path *)
  faults : list bool;         (** per system call: does it raise [OSError] *)
  urandom : list string;      (** [os.urandom], also inside [Fernet.encrypt] *)
  clock : list Z;             (** [datetime.now()], in microseconds *)
  time_time : list float;     (** [time.time()] *)
  random_random : list float; (** [random.random()] *)
  random_choice : list nat;   (** [random.choice]: the index chosen *)
  stdin : list string;        (** [input()] *)
  user : string;              (** [getpass.getuser()] *)
  umask : N                   (** the process's file mode creation mask *)
}.

Definition set_fs (w : World) (m : gmap string file) : World :=
  mkWorld m (faults w) (urandom w) (clock w) (time_time w) (random_random w)
          (random_choice w) (stdin w) (user w) (umask w).
Definition set_faults (w : World) (l : list bool) : World :=
  mkWorld (fs w) l (urandom w) (clock w) (time_time w) (random_random w)
          (random_choice w) (stdin w) (user w) (umask w).
Definition set_urandom (w : World) (l : list string) : World :=
  mkWorld (fs w) (faults w) l (clock w) (time_time w) (random_random w)
          (random_choice w) (stdin w) (user w) (umask w).
Definition set_clock (w : World) (l : list Z) : World :=
  mkWorld (fs w) (faults w) (urandom w) l (time_time w) (random_random w)
          (random_choice w) (stdin w) (user w) (umask w).
Definition set_time_time (w : World) (l : list float) : World :=
  mkWorld (fs w) (faults w) (urandom w) (clock w) l (random_random w)
          (random_choice w) (stdin w) (user w) (umask w).
Definition set_random_random (w : World) (l : list float) : World :=
  mkWorld (fs w) (faults w) (urandom w) (clock w) (time_time w) l
          (random_choice w) (stdin w) (user w) (umask w).
Definition set_random_choice (w : World) (l : list nat) : World :=
  mkWorld (fs w) (faults w) (urandom w) (clock w) (time_time w)
          (random_random w) l (stdin w) (user w) (umask w).
Definition set_stdin (w : World) (l : list string) : World :=
  mkWorld (fs w) (faults w) (urandom w) (clock w) (time_time w)
          (random_random w) (random_choice w) l (user w) (umask w).

(** ** The monad: state and exceptions *)

Inductive exn := OSError | InvalidToken | AttributeError.

Inductive result (A : Type) :=
| Ret (a : A)
| Raise (e : exn).
Arguments Ret {A} a.
Arguments Raise {A} e.

Definition M (S A : Type) : Type := S → result A * S.

Definition ret {S A} (a : A) : M S A := λ s, (Ret a, s).

Definition raise {S A} (e : exn) : M S A := λ s, (Raise e, s).

Definition bind {S A B} (m : M S A) (k : A → M S B) : M S B :=
  λ s, match m s with
       | (Ret a, s') => k a s'
       | (Raise e, s') => (Raise e, s')
       end.

(** [try: m except Exception: h].  What [m] did to the state before it
    raised stays done. *)
Definition try_except {S A} (m : M S A) (h : exn → M S A) : M S A :=
  λ s, match m s with
       | (Raise e, s') => h e s'
       | r => r
       end.

Declare Scope py_scope.
Delimit Scope py_scope with py.
Notation "x <- m ;; k" := (bind m (λ x, k))
  (at level 100, m at next level, right associativity) : py_scope.
Notation "m ;; k" := (bind m (λ _, k))
  (at level 100, right associativity) : py_scope.
Open Scope py_scope.

(** Reading and updating the object; the world is the second component. *)
Definition gets {O A} (f : O → A) : M (O * World) A := λ s, (Ret (f s.1), s).

Definition modify {O} (f : O → O) : M (O * World) unit :=
  λ s, (Ret tt, (f s.1, s.2)).

Definition io {O A} (m : World → result A * World) : M (O * World) A :=
  λ s, let '(r, w) := m s.2 in (r, (s.1, w)).

(** ** System calls *)

(** A system call consumes one fault; when it does not fault it runs [op] on
    the file system, and [None] is the call failing by itself (a missing
    file). *)
Definition faulty (l : list bool) : bool := default false (head l).

Definition syscall {A} (op : World → option (A * gmap string file))
    (w : World) : result A * World :=
  let w' := set_faults w (tail (faults w)) in
  if faulty (faults w) then (Raise OSError, w')
  else match op w with
       | Some (a, m) => (Ret a, set_fs w' m)
       | None => (Raise OSError, w')
       end.

(** No system call of the world faults. *)
Definition no_faults (w : World) : bool := forallb negb (faults w).

(** [open(path, 'rb').read()] *)
Definition read_file {O} (path : string) : M (O * World) string :=
  io (syscall (λ w,
    match fs w !! path with
    | Some f => Some (f_data f, fs w)
    | None => None
    end)).

(** The mode of a file [open] creates: [0o666] without the bits of the
    mask. *)
Definition create_mode (mask : N) : N := N.ldiff 438 mask.

(** [open(path, 'wb')]: creates the file, or truncates it keeping its mode. *)
Definition open_w {O} (path : string) : M (O * World) unit :=
  io (syscall (λ w,
    let mode := match fs w !! path with
                | Some f => f_mode f
                | None => create_mode (umask w)
                end in
    Some (tt, <[path := File "" mode]> (fs w)))).

(** [f.write(data)] on the file just opened at [path], and its close. *)
Definition fwrite {O} (path data : string) : M (O * World) unit :=
  io (syscall (λ w,
    match fs w !! path with
    | Some f => Some (tt, <[path := File data (f_mode f)]> (fs w))
    | None => None
    end)).

(** [with open(path, 'wb') as f: f.write(data)] *)
Definition write_file {O} (path data : string) : M (O * World) unit :=
  open_w path ;; fwrite path data.

(** [os.chmod(path, mode)] on a regular file. *)
Definition os_chmod {O} (path : string) (mode : N) : M (O * World) unit :=
  io (syscall (λ w,
    match fs w !! path with
    | Some f => Some (tt, <[path := File (f_data f) mode]> (fs w))
    | None => None
    end)).

(** [os.rename(src, dst)] *)
Definition os_rename {O} (src dst : string) : M (O * World) unit :=
  io (syscall (λ w,
    match fs w !! src with
    | Some f => Some (tt, <[dst := f]> (delete src (fs w)))
    | None => None
    end)).

(** [os.makedirs(path, exist_ok=True)] and [os.chmod] of a directory:
    directories are not tracked, the call can only fault. *)
Definition dir_call {O} (path : string) : M (O * World) unit :=
  io (syscall (λ w, Some (tt, fs w))).

(** [os.path.exists(path)]: never raises. *)
Definition os_path_exists {O} (path : string) : M (O * World) bool :=
  io (λ w, (Ret (if fs w !! path is Some _ then true else false), w)).

(** [os.urandom(n)] *)
Definition os_urandom {O} (n : nat) : M (O * World) string :=
  io (λ w, (Ret (String.substring 0 n (default "" (head (urandom w)))),
            set_urandom w (tail (urandom w)))).

(** [datetime.now()] *)
Definition datetime_now {O} : M (O * World) Z :=
  io (λ w, (Ret (default 0%Z (head (clock w))), set_clock w (tail (clock w)))).

(** [time.time()] *)
Definition time_now {O} : M (O * World) float :=
  io (λ w, (Ret (default 0%float (head (time_time w))),
            set_time_time w (tail (time_time w)))).

(** [random.random()] *)
Definition rand_random {O} : M (O * World) float :=
  io (λ w, (Ret (default 0%float (head (random_random w))),
            set_random_random w (tail (random_random w)))).

(** The element of [l] at the index drawn, [d] when [l] is empty. *)
Definition choose {A} (l : list A) (d : A) (draw : nat) : A :=
  nth (draw mod length l) l d.

(** [random.choice(l)] *)
Definition rand_choice {O A} (l : list A) (d : A) : M (O * World) A :=
  io (λ w, (Ret (choose l d (default 0 (head (random_choice w)))),
            set_random_choice w (tail (random_choice w)))).

(** [input(prompt)]: the next line typed. *)
Definition input {O} : M (O * World) string :=
  io (λ w, (Ret (default "" (head (stdin w))), set_stdin w (tail (stdin w)))).

(** [getpass.getuser()] *)
Definition getuser {O} : M (O * World) string := io (λ w, (Ret (user w), w)).

(** ** Paths ([posixpath]) *)

Definition slash : ascii := "/"%char.

Fixpoint has_slash (p : string) : bool :=
  match p with
  | EmptyString => false
  | String c r => if decide (c = slash) then true else has_slash r
  end.

(** [os.path.basename(p)]: what follows the last slash. *)
Fixpoint os_path_basename (p : string) : string :=
  match p with
  | EmptyString => EmptyString
  | String c r =>
      if has_slash r then os_path_basename r
      else if decide (c = slash) then r else p
  end.

Fixpoint ends_with_slash (p : string) : bool :=
  match p with
  | EmptyString => false
  | String c EmptyString => bool_decide (c = slash)
  | String _ r => ends_with_slash r
  end.

(** [os.path.join(a, b)] *)
Definition os_path_join (a b : string) : string :=
  if (if b is String c _ then bool_decide (c = slash) else false) then b
  else if bool_decide (a = "") || ends_with_slash a then a +:+ b
  else a +:+ "/" +:+ b.

(** ** Strings *)

(** [s.lower()], on the letters A to Z. *)
Definition ascii_lower (c : ascii) : ascii :=
  let n := nat_of_ascii c in
  if (65 <=? n)%nat && (n <=? 90)%nat then ascii_of_nat (n + 32) else c.

Fixpoint str_lower (s : string) : string :=
  match s with
  | EmptyString => EmptyString
  | String c r => String (ascii_lower c) (str_lower r)
  end.

(** [s.replace(a, b)] for single characters [a] and [b]. *)
Fixpoint str_replace (a b : ascii) (s : string) : string :=
  match s with
  | EmptyString => EmptyString
  | String c r => String (if decide (c = a) then b else c) (str_replace a b r)
  end.

Fixpoint str_startswith (p s : string) : bool :=
  match p, s with
  | EmptyString, _ => true
  | String a p', String b s' => bool_decide (a = b) && str_startswith p' s'
  | String _ _, EmptyString => false
  end.

(** [needle in hay] *)
Fixpoint str_in (needle hay : string) : bool :=
  str_startswith needle hay ||
  match hay with
  | EmptyString => false
  | String _ r => str_in needle r
  end.

(** [s.count(c)] for a single character [c]. *)
Fixpoint str_count (c : ascii) (s : string) : nat :=
  match s with
  | EmptyString => 0
  | String a r => (if decide (a = c) then 1 else 0) + str_count c r
  end.

(** ** [constitution_lock.py] *)

Module ConstitutionLock.
Section methods.
Context {L : PyLib}.

(** The object.  [human_token] is the key of the [Fernet] object the field
    holds, [None] before authentication. *)
Record t := mk {
  protected_files : list pydict;
  access_log : list pydict;
  lock_directory : string;
  human_token : option string
}.

Definition set_protected_files (o : t) (l : list pydict) : t :=
  mk l (access_log o) (lock_directory o) (human_token o).
Definition set_access_log (o : t) (l : list pydict) : t :=
  mk (protected_files o) l (lock_directory o) (human_token o).
Definition set_human_token (o : t) (k : option string) : t :=
  mk (protected_files o) (access_log o) (lock_directory o) k.

(** [__init__] *)
Definition init : t := mk [] [] "/tmp/guardian_locks" None.

(** The key both [generate_human_token] and [verify_human_access] derive:
    [base64.urlsafe_b64encode(kdf.derive(password.encode()))] with the
    [PBKDF2HMAC] of the source (SHA256, length 32, 100000 iterations). *)
Definition derive_key (salt password : string) : string :=
  urlsafe_b64encode (pbkdf2_hmac_sha256 32 salt 100000 password).

(** [Fernet(key).encrypt(data)]: the library reads the time and draws the
    initialisation vector. *)
Definition Fernet_encrypt (key data : string) : M (t * World) string :=
  now <- time_now ;;
  iv <- os_urandom 16 ;;
  ret (fernet_encrypt key (float_int now) iv data).

(** [token.decrypt(data)] on the value of [self.human_token]. *)
Definition Fernet_decrypt (token : option string) (data : string)
    : M (t * World) string :=
  match token with
  | None => raise AttributeError
  | Some key =>
      match fernet_decrypt key data with
      | Some plain => ret plain
      | None => raise InvalidToken
      end
  end.

Definition setup_protection_directory : M (t * World) bool :=
  try_except
    (lock_dir <- gets lock_directory ;;
     dir_call lock_dir ;;
     dir_call lock_dir ;;
     ret true)
    (λ _, ret false).

Definition generate_human_token (password : string) : M (t * World) bool :=
  salt <- os_urandom 16 ;;
  let key := derive_key salt password in
  modify (λ o, set_human_token o (Some key)) ;;
  lock_dir <- gets lock_directory ;;
  let salt_file := os_path_join lock_dir "human_salt" in
  write_file salt_file salt ;;
  os_chmod salt_file 384 ;;
  ret true.

Definition verify_human_access (password : string) : M (t * World) bool :=
  try_except
    (lock_dir <- gets lock_directory ;;
     let salt_file := os_path_join lock_dir "human_salt" in
     salt <- read_file salt_file ;;
     let key := derive_key salt password in
     let test_token := Some key in
     let test_file := os_path_join lock_dir "human_test" in
     present <- os_path_exists test_file ;;
     if present then
       encrypted_test <- read_file test_file ;;
       Fernet_decrypt test_token encrypted_test ;;
       modify (λ o, set_human_token o test_token) ;;
       ret true
     else
       let test_data := "HUMAN_VERIFIED" in
       encrypted_test <- Fernet_encrypt key test_data ;;
       write_file test_file encrypted_test ;;
       os_chmod test_file 384 ;;
       modify (λ o, set_human_token o test_token) ;;
       ret true)
    (λ _, ret false).

Definition protect_file (file_path protection_level : string)
    : M (t * World) bool :=
  token <- gets human_token ;;
  match token with
  | None => ret false
  | Some key =>
      present <- os_path_exists file_path ;;
      if negb present then ret false
      else
        try_except
          (file_data <- read_file file_path ;;
           let file_hash := sha256_hexdigest file_data in
           encrypted_data <- Fernet_encrypt key file_data ;;
           now <- datetime_now ;;
           let protection_metadata :=
             [("original_path", VStr file_path);
              ("protection_level", VStr protection_level);
              ("file_hash", VStr file_hash);
              ("protected_timestamp", VStr (isoformat now));
              ("guardian_protection", VBool true);
              ("human_authorized", VBool true);
              ("constitution_file", VBool true)] in
           let protected_path := file_path +:+ ".guardian_protected" in
           write_file protected_path encrypted_data ;;
           os_chmod protected_path 384 ;;
           lock_dir <- gets lock_directory ;;
           let metadata_path :=
             os_path_join lock_dir (os_path_basename file_path +:+ ".metadata") in
           write_file metadata_path (json_dump protection_metadata) ;;
           os_chmod metadata_path 384 ;;
           os_rename protected_path file_path ;;
           os_chmod file_path 256 ;;
           now' <- datetime_now ;;
           modify (λ o, set_protected_files o (protected_files o ++
             [[("path", VStr file_path);
               ("protection_level", VStr protection_level);
               ("timestamp", VStr (isoformat now'))]])) ;;
           ret true)
          (λ _, ret false)
  end.

(** Returns [False] or the path of the side file. *)
Definition unlock_file_for_human (file_path password : string)
    : M (t * World) pyval :=
  verified <- verify_human_access password ;;
  if negb verified then ret (VBool false)
  else
    try_except
      (encrypted_data <- read_file file_path ;;
       token <- gets human_token ;;
       decrypted_data <- Fernet_decrypt token encrypted_data ;;
       let temp_path := file_path +:+ ".human_access" in
       write_file temp_path decrypted_data ;;
       now <- datetime_now ;;
       who <- getuser ;;
       let access_record :=
         [("file_path", VStr file_path);
          ("access_type", VStr "human_unlock");
          ("timestamp", VStr (isoformat now));
          ("user", VStr who)] in
       modify (λ o, set_access_log o (access_log o ++ [access_record])) ;;
       ret (VStr temp_path))
      (λ _, ret (VBool false)).

End methods.
End ConstitutionLock.

(** ** [human_verify.py] *)

Module HumanVerify.
Section methods.
Context {L : PyLib}.

(** A challenge of the catalogue: a dict whose keys besides ['type'] and
    ['question'] depend on the kind. *)
Record challenge := mk_challenge {
  c_type : string;
  question : string;
  expected_delay : option (float * float);
  expected_patterns : option (list string);
  ai_indicators : option (list string);
  suspicious_if_perfect : option bool
}.

(** An entry of [human_sessions]; times in microseconds. *)
Record session := mk_session {
  created : Z;
  expires : Z;
  verified_human : bool;
  verification_challenges_passed : bool
}.

Record t := mk {
  verification_log : list pydict;
  failed_attempts : list pydict;
  human_sessions : gmap string session;
  ai_detection_patterns : list string
}.

Definition set_verification_log (o : t) (l : list pydict) : t :=
  mk l (failed_attempts o) (human_sessions o) (ai_detection_patterns o).
Definition set_failed_attempts (o : t) (l : list pydict) : t :=
  mk (verification_log o) l (human_sessions o) (ai_detection_patterns o).
Definition set_human_sessions (o : t) (m : gmap string session) : t :=
  mk (verification_log o) (failed_attempts o) m (ai_detection_patterns o).

(** [__init__] *)
Definition init : t :=
  mk [] [] ∅
     ["optimal_response_time"; "perfect_accuracy"; "computational_language";
      "pattern_repetition"; "lack_of_hesitation"].

(** The double quote character, for the questions that quote a text. *)
Definition dquote : string := String (ascii_of_nat 34) EmptyString.

Definition timing_challenge : challenge :=
  mk_challenge "timing_challenge"
    ("Type " +:+ dquote +:+ "HUMAN" +:+ dquote +:+
     " exactly 3 seconds after you see this message")
    (Some (2.5%float, 3.5%float)) None None None.

Definition challenges : list challenge :=
  [timing_challenge;
   mk_challenge "contextual_reasoning"
     "If you saw a child about to touch a hot stove, what would you naturally do first?"
     None (Some ["warn"; "shout"; "stop"; "grab"; "prevent"; "protect"]) None None;
   mk_challenge "emotional_response"
     "Describe how you feel when you see a beautiful sunset (be specific)"
     None None (Some ["optimal"; "efficient"; "data"; "analysis"; "compute"]) None;
   mk_challenge "imperfection_test"
     ("Quickly type this sentence with minor natural typos: " +:+ dquote +:+
      "The quick brown fox jumps over the lazy dog" +:+ dquote)
     None None None (Some true);
   mk_challenge "personal_memory"
     "What was your favorite childhood toy and why? (be personal)"
     None None (Some ["simulate"; "training data"; "language model"; "AI system"]) None].

Definition generate_human_challenge : M (t * World) challenge :=
  rand_choice challenges timing_challenge.

(** The dict [analyze_response_timing] returns; ['reason'] is absent when
    the timing is not suspicious. *)
Record timing_analysis := mk_timing {
  t_suspicious : bool;
  t_reason : option string;
  t_response_time : float
}.

Definition analyze_response_timing (start_time end_time : float)
    (challenge_type : string) : timing_analysis :=
  let response_time := PrimFloat.sub end_time start_time in
  if PrimFloat.ltb response_time 0.5 then
    mk_timing true (Some "Response too fast for human") response_time
  else if bool_decide (challenge_type = "timing_challenge") &&
          (PrimFloat.ltb response_time 2.5 || PrimFloat.ltb 3.5 response_time) then
    mk_timing true (Some "Failed timing challenge") response_time
  else mk_timing false None response_time.

Definition is_too_perfect (text : string) : bool :=
  if (50 <? String.length text)%nat then
    let has_typos := existsb (λ c, str_in c text) ["teh"; "hte"; "adn"; "taht"] in
    let has_casual_language :=
      existsb (λ word, str_in word (str_lower text)) ["um"; "uh"; "like"; "you know"] in
    if negb has_typos && negb has_casual_language && (str_count "," text <? 1)%nat
    then true else false
  else false.

Record content_analysis := mk_content {
  c_suspicious : bool;
  indicators : list string;
  confidence_human : Z
}.

Definition analyze_response_content (self : t) (response : string)
    (challenge : challenge) : content_analysis :=
  let response_lower := str_lower response in
  let general :=
    List.filter (λ indicator, str_in (str_replace "_" " " indicator) response_lower)
                (ai_detection_patterns self) in
  let specific :=
    match ai_indicators challenge with
    | Some l =>
        map (λ indicator, "ai_language: " +:+ indicator)
            (List.filter (λ indicator, str_in indicator response_lower) l)
    | None => []
    end in
  let perfect :=
    if default false (suspicious_if_perfect challenge) && is_too_perfect response
    then ["overly_perfect_response"] else [] in
  let suspicious_indicators := general ++ specific ++ perfect in
  mk_content (0 <? length suspicious_indicators)%nat
             suspicious_indicators
             (Z.max 0 (100 - Z.of_nat (length suspicious_indicators) * 25)).

(** The first 16 characters of the SHA-256 hex digest of
    [f"{time.time()}_{random.random()}"]. *)
Definition session_token (now random : float) : string :=
  String.substring 0 16
    (sha256_hexdigest (float_str now +:+ "_" +:+ float_str random)).

Definition hour : Z := 3600 * 1000000.

Definition create_human_session : M (t * World) string :=
  now <- time_now ;;
  random <- rand_random ;;
  let session_token := session_token now random in
  created <- datetime_now ;;
  now' <- datetime_now ;;
  modify (λ o, set_human_sessions o
    (<[session_token := mk_session created (now' + hour) true true]>
       (human_sessions o))) ;;
  ret session_token.

Definition verify_session (session_token : string) : M (t * World) bool :=
  sessions <- gets human_sessions ;;
  match sessions !! session_token with
  | None => ret false
  | Some session =>
      now <- datetime_now ;;
      if (expires session <? now)%Z then
        modify (λ o, set_human_sessions o (delete session_token (human_sessions o))) ;;
        ret false
      else ret true
  end.

Definition log_failed_attempt : M (t * World) unit :=
  now <- datetime_now ;;
  who <- getuser ;;
  let attempt :=
    [("timestamp", VStr (isoformat now));
     ("type", VStr "failed_human_verification");
     ("user", VStr who);
     ("suspicious_activity", VBool true);
     ("possible_ai_attempt", VBool true)] in
  modify (λ o, set_failed_attempts o (failed_attempts o ++ [attempt])) ;;
  seconds <- time_now ;;
  let alert_file :=
    "/tmp/guardian_ai_access_attempt_" +:+ int_str (float_int seconds) +:+ ".json" in
  write_file alert_file (json_dump attempt).

(** One turn of the loop of [multi_challenge_verification]; the result is
    [challenge_passed]. *)
Definition run_challenge : M (t * World) bool :=
  challenge <- generate_human_challenge ;;
  start_time <- time_now ;;
  response <- input ;;
  end_time <- time_now ;;
  let timing := analyze_response_timing start_time end_time (c_type challenge) in
  self <- gets id ;;
  let content := analyze_response_content self response challenge in
  let challenge_passed := negb (t_suspicious timing || c_suspicious content) in
  now <- datetime_now ;;
  let verification_record :=
    [("timestamp", VStr (isoformat now));
     ("challenge_type", VStr (c_type challenge));
     ("response_time", VFloat (t_response_time timing));
     ("suspicious_timing", VBool (t_suspicious timing));
     ("suspicious_content", VBool (c_suspicious content));
     ("passed", VBool challenge_passed);
     ("confidence_human", VInt (confidence_human content))] in
  modify (λ o, set_verification_log o (verification_log o ++ [verification_record])) ;;
  ret challenge_passed.

(** [for i in range(n)] with the counter [challenges_passed]. *)
Fixpoint challenge_loop (n challenges_passed : nat) : M (t * World) nat :=
  match n with
  | O => ret challenges_passed
  | S n' =>
      challenge_passed <- run_challenge ;;
      challenge_loop n' (if challenge_passed then S challenges_passed
                         else challenges_passed)
  end.

(** Returns the session token, or [None]. *)
Definition multi_challenge_verification : M (t * World) (option string) :=
  let total_challenges := 3%nat in
  challenges_passed <- challenge_loop total_challenges 0 ;;
  let human_verified := (2 <=? challenges_passed)%nat in
  if human_verified then
    session_token <- create_human_session ;;
    ret (Some session_token)
  else
    log_failed_attempt ;;
    ret None.

End methods.
End HumanVerify.

(** ** A small instance of the library

    An executable stand-in for the library functions, to run the methods on
    concrete worlds.  A token is its key and its plaintext framed together,
    the derived key is the salt and the password framed together, and the
    digest is the text after a tag; [IdealCrypto] holds of it. *)

Fixpoint ones (n : nat) : string :=
  match n with
  | O => EmptyString
  | S n' => String "1" (ones n')
  end.

(** [a] after its length in unary, then [b]. *)
Definition frame (a b : string) : string :=
  ones (String.length a) +:+ "0" +:+ a +:+ b.

Fixpoint split_at (n : nat) (s : string) : option (string * string) :=
  match n, s with
  | O, _ => Some (EmptyString, s)
  | S n', String c r =>
      match split_at n' r with
      | Some (a, b) => Some (String c a, b)
      | None => None
      end
  | S _, EmptyString => None
  end.

Fixpoint unframe_from (n : nat) (s : string) : option (string * string) :=
  match s with
  | String c r =>
      if decide (c = "1"%char) then unframe_from (S n) r
      else if decide (c = "0"%char) then split_at n r
      else None
  | EmptyString => None
  end.

Definition unframe : string → option (string * string) := unframe_from 0.

(** A float as its mantissa and exponent. *)
Definition show_float (x : float) : string :=
  let '(m, e) := PrimFloat.frshiftexp x in
  (if PrimFloat.ltb x 0 then "-" else "") +:+
  int_str (Uint63.to_Z (PrimFloat.normfr_mantissa m)) +:+ "e" +:+
  int_str (Uint63.to_Z e).

Definition show_pyval (v : pyval) : string :=
  match v with
  | VStr s => s
  | VBool b => if b then "true" else "false"
  | VInt n => int_str n
  | VFloat x => show_float x
  end.

Definition small_lib : PyLib := {|
  pbkdf2_hmac_sha256 _ salt _ password := frame salt password;
  urlsafe_b64encode s := s;
  fernet_encrypt key _ _ data := frame key data;
  fernet_decrypt key token :=
    match unframe token with
    | Some (k, data) => if decide (k = key) then Some data else None
    | None => None
    end;
  sha256_hexdigest s := "sha256:" +:+ s;
  json_dump d := String.concat ";" (map (λ kv, kv.1 +:+ "=" +:+ show_pyval kv.2) d);
  isoformat now := int_str now;
  float_str x := show_float x;
  float_int x := 0%Z
|}.
(** * Facts about paths *)

Fixpoint str_last (s : string) : option ascii :=
  match s with
  | EmptyString => None
  | String c EmptyString => Some c
  | String _ r => str_last r
  end.

(** What [os.path.join] puts before a relative second argument. *)
Definition dir_prefix (d : string) : string :=
  if bool_decide (d = "") || ends_with_slash d then d else d +:+ "/".

Lemma length_app (a b : string) :
  String.length (a +:+ b) = String.length a + String.length b.
Proof.
  induction a as [|c a IH]; [done|].
  change (S (String.length (a +:+ b)) = S (String.length a) + String.length b).
  by rewrite IH.
Qed.

Lemma app_assoc_str (a b c : string) : (a +:+ b) +:+ c = a +:+ b +:+ c.
Proof.
  induction a as [|x a IH]; [done|].
  change (String x ((a +:+ b) +:+ c) = String x (a +:+ b +:+ c)). by rewrite IH.
Qed.

Lemma app_ne_self (p s : string) : s ≠ "" → p +:+ s ≠ p.
Proof.
  intros Hs Heq. apply (f_equal String.length) in Heq.
  rewrite length_app in Heq. destruct s; [done|]. simpl in Heq. lia.
Qed.

Lemma str_last_app (a b : string) : b ≠ "" → str_last (a +:+ b) = str_last b.
Proof.
  intros Hb. induction a as [|c a IH]; [done|].
  change (String c a +:+ b) with (String c (a +:+ b)). simpl.
  destruct (a +:+ b) eqn:E; [|done].
  destruct a; simpl in E; [by subst|done].
Qed.

Lemma has_slash_app (a b : string) :
  has_slash (a +:+ b) = has_slash a || has_slash b.
Proof.
  induction a as [|c a IH]; [done|].
  change (String c a +:+ b) with (String c (a +:+ b)). simpl.
  by destruct (decide (c = slash)).
Qed.

Lemma ends_with_slash_has_slash (p : string) :
  ends_with_slash p = true → has_slash p = true.
Proof.
  induction p as [|c p IH]; [done|]. simpl.
  destruct p.
  - intros ?%bool_decide_eq_true. by rewrite decide_True.
  - intros ?. destruct (decide (c = slash)); auto.
Qed.

Lemma basename_no_slash (p : string) : has_slash (os_path_basename p) = false.
Proof.
  induction p as [|c p IH]; [done|]. simpl.
  destruct (has_slash p) eqn:E; [done|].
  destruct (decide (c = slash)); [done|]. simpl. by rewrite decide_False.
Qed.

Lemma basename_plain (x : string) : has_slash x = false → os_path_basename x = x.
Proof.
  destruct x as [|c x]; [done|]. simpl.
  destruct (decide (c = slash)); [done|]. by intros ->.
Qed.

Lemma basename_under (pre x : string) :
  has_slash x = false →
  pre = "" ∨ ends_with_slash pre = true →
  os_path_basename (pre +:+ x) = x.
Proof.
  intros Hx. induction pre as [|c pre IH]; intros Hpre.
  - by apply basename_plain.
  - destruct Hpre as [?|Hpre]; [done|].
    change (String c pre +:+ x) with (String c (pre +:+ x)). simpl.
    rewrite has_slash_app, Hx, orb_false_r.
    destruct pre as [|c' pre].
    + simpl in *. apply bool_decide_eq_true in Hpre. by rewrite decide_True.
    + rewrite ends_with_slash_has_slash by done. apply IH. by right.
Qed.

Lemma ends_with_slash_app (d : string) : ends_with_slash (d +:+ "/") = true.
Proof.
  induction d as [|c d IH]; [done|].
  change (String c d +:+ "/") with (String c (d +:+ "/")). simpl.
  destruct (d +:+ "/") eqn:E; [|done]. by destruct d.
Qed.

Lemma dir_prefix_shape (d : string) :
  dir_prefix d = "" ∨ ends_with_slash (dir_prefix d) = true.
Proof.
  unfold dir_prefix. destruct (bool_decide (d = "")) eqn:E1.
  - left. by apply bool_decide_eq_true in E1.
  - simpl. destruct (ends_with_slash d) eqn:E2; right; [done|].
    apply ends_with_slash_app.
Qed.

(** A relative name is joined after the directory's prefix. *)
Lemma join_relative (d x : string) :
  (if x is String c _ then bool_decide (c = slash) else false) = false →
  os_path_join d x = dir_prefix d +:+ x.
Proof.
  intros Hx. unfold os_path_join, dir_prefix. rewrite Hx.
  destruct (bool_decide (d = "") || ends_with_slash d); [done|].
  by rewrite app_assoc_str.
Qed.

Lemma join_suffix (d x : string) : ∃ pre, os_path_join d x = pre +:+ x.
Proof.
  unfold os_path_join.
  destruct (if x is String c _ then bool_decide (c = slash) else false).
  - by exists "".
  - destruct (bool_decide (d = "") || ends_with_slash d).
    + by exists d.
    + exists (d +:+ "/"). by rewrite app_assoc_str.
Qed.

Lemma str_last_join (d x : string) :
  x ≠ "" → str_last (os_path_join d x) = str_last x.
Proof.
  intros Hx. destruct (join_suffix d x) as [pre ->]. by apply str_last_app.
Qed.

Lemma relative_metadata_name (b : string) :
  has_slash b = false →
  (if b +:+ ".metadata" is String c _ then bool_decide (c = slash) else false) = false.
Proof.
  destruct b as [|c b]; [done|].
  change (String c b +:+ ".metadata") with (String c (b +:+ ".metadata")).
  simpl. destruct (decide (c = slash)); [done|]. intros _. by apply bool_decide_eq_false.
Qed.

Lemma str_last_join_app (d p s : string) :
  s ≠ "" → str_last (os_path_join d (p +:+ s)) = str_last s.
Proof.
  intros Hs. destruct (join_suffix d (p +:+ s)) as [pre ->].
  rewrite <- app_assoc_str. by apply str_last_app.
Qed.

(** Two paths differ when their last characters do. *)
Ltac by_last_char :=
  let H := fresh in
  intros H; apply (f_equal str_last) in H;
  rewrite ?str_last_join_app, ?str_last_join, ?str_last_app in H by done;
  discriminate H.

Lemma temp_ne_path (p : string) : p +:+ ".guardian_protected" ≠ p.
Proof. by apply app_ne_self. Qed.

Lemma side_ne_path (p : string) : p +:+ ".human_access" ≠ p.
Proof. by apply app_ne_self. Qed.

Lemma metadata_ne_path (d p : string) :
  os_path_join d (os_path_basename p +:+ ".metadata") ≠ p.
Proof.
  intros Heq. apply (f_equal os_path_basename) in Heq.
  pose proof (basename_no_slash p) as Hb.
  rewrite join_relative in Heq by by apply relative_metadata_name.
  rewrite basename_under in Heq.
  - by apply app_ne_self in Heq.
  - by rewrite has_slash_app, Hb.
  - apply dir_prefix_shape.
Qed.

Lemma metadata_ne_temp (d p q : string) :
  os_path_join d (p +:+ ".metadata") ≠ q +:+ ".guardian_protected".
Proof. by_last_char. Qed.

Lemma metadata_ne_side (d p q : string) :
  os_path_join d (p +:+ ".metadata") ≠ q +:+ ".human_access".
Proof. by_last_char. Qed.

Lemma salt_ne_temp (d q : string) :
  os_path_join d "human_salt" ≠ q +:+ ".guardian_protected".
Proof. by_last_char. Qed.

Lemma salt_ne_metadata (d d' p : string) :
  os_path_join d "human_salt" ≠ os_path_join d' (p +:+ ".metadata").
Proof. by_last_char. Qed.

Lemma test_ne_temp (d q : string) :
  os_path_join d "human_test" ≠ q +:+ ".guardian_protected".
Proof. by_last_char. Qed.

Lemma test_ne_metadata (d d' p : string) :
  os_path_join d "human_test" ≠ os_path_join d' (p +:+ ".metadata").
Proof. by_last_char. Qed.

Lemma test_ne_salt (d : string) :
  os_path_join d "human_test" ≠ os_path_join d "human_salt".
Proof.
  rewrite !join_relative by done. by intros ?%(inj (String.app _)).
Qed.

Lemma test_ne_side (d q : string) :
  os_path_join d "human_test" ≠ q +:+ ".human_access".
Proof. by_last_char. Qed.

Lemma salt_ne_side (d q : string) :
  os_path_join d "human_salt" ≠ q +:+ ".human_access".
Proof. by_last_char. Qed.

#[global] Arguments os_path_join : simpl never.
#[global] Arguments os_path_basename : simpl never.
#[global] Arguments create_mode : simpl never.
#[global] Arguments faulty l : simpl nomatch.

Create HintDb paths.
#[global] Hint Resolve temp_ne_path side_ne_path metadata_ne_path metadata_ne_temp
  metadata_ne_side salt_ne_temp salt_ne_metadata test_ne_temp test_ne_metadata
  test_ne_salt test_ne_side salt_ne_side : paths.
#[global] Hint Extern 2 (_ ≠ _) => apply not_eq_sym : paths.

Ltac paths := solve [eauto 3 with paths].

(** * Running the methods in proofs *)

(** Case analysis on the innermost scrutinee the computation in [H] is
    stuck on. *)
Ltac stuck_in H :=
  match type of H with
  | context [match ?x with _ => _ end] =>
      lazymatch x with
      | context [match _ with _ => _ end] => fail
      | _ => destruct x eqn:?
      end
  end.

Ltac stuck :=
  match goal with
  | |- context [match ?x with _ => _ end] =>
      lazymatch x with
      | context [match _ with _ => _ end] => fail
      | _ => destruct x eqn:?
      end
  end.

Ltac lookups_in H :=
  repeat first
    [ rewrite lookup_insert_eq in H
    | rewrite lookup_delete_eq in H
    | rewrite lookup_insert_ne in H by paths
    | rewrite lookup_delete_ne in H by paths ].

Ltac lookups :=
  repeat first
    [ rewrite lookup_insert_eq
    | rewrite lookup_delete_eq
    | rewrite lookup_insert_ne by paths
    | rewrite lookup_delete_ne by paths ].

(** The definitions a method is made of. *)
Ltac unfold_monad :=
  unfold write_file in *;
  unfold try_except, bind, gets, modify, read_file, open_w, fwrite,
    os_chmod, os_rename, dir_call, os_path_exists, os_urandom, datetime_now,
    time_now, rand_random, rand_choice, input, getuser, io, syscall, ret, raise
    in *.

Lemma no_faults_step (l : list bool) :
  forallb negb l = true → faulty l = false ∧ forallb negb (tail l) = true.
Proof. destruct l as [|[] l]; simpl; auto. discriminate. Qed.

(** From [H : forallb negb l = true]: no call of the next [n] faults. *)
Ltac no_fault_facts H n :=
  lazymatch n with
  | O => idtac
  | S ?n' =>
      let H1 := fresh "Hok" in
      let H2 := fresh "Hrest" in
      destruct (no_faults_step _ H) as [H1 H2];
      no_fault_facts H2 n'
  end.

(** * The small instance is an ideal one *)

Lemma split_at_app (a b : string) :
  split_at (String.length a) (a +:+ b) = Some (a, b).
Proof.
  induction a as [|c a IH]; [done|].
  change (String c a +:+ b) with (String c (a +:+ b)). simpl. by rewrite IH.
Qed.

Lemma unframe_from_ones (n k : nat) (r : string) :
  unframe_from n (ones k +:+ "0" +:+ r) = split_at (n + k) r.
Proof.
  revert n. induction k as [|k IH]; intros n.
  - simpl. by rewrite Nat.add_0_r.
  - change (ones (S k) +:+ "0" +:+ r) with (String "1" (ones k +:+ "0" +:+ r)).
    simpl. rewrite IH. f_equal. lia.
Qed.

Lemma unframe_frame (a b : string) : unframe (frame a b) = Some (a, b).
Proof.
  unfold unframe, frame. rewrite unframe_from_ones. apply split_at_app.
Qed.

#[global] Instance small_lib_ideal : IdealCrypto small_lib.
Proof.
  split.
  - intros key now iv data. simpl. rewrite unframe_frame.
    by rewrite decide_True.
  - intros key key' token data data'. simpl.
    destruct (unframe token) as [[k d]|]; [|done].
    do 2 case_decide; congruence.
  - intros salt salt' password password'. simpl. intros Heq.
    apply (f_equal unframe) in Heq. rewrite !unframe_frame in Heq.
    by simplify_eq.
Qed.

(** * The vault *)

Module Vault.
Import ConstitutionLock.
Section proofs.
Context {L : PyLib}.

(** The paths the methods compute. *)
Definition salt_file (o : t) : string := os_path_join (lock_directory o) "human_salt".
Definition test_file (o : t) : string := os_path_join (lock_directory o) "human_test".
Definition protected_path (file_path : string) : string :=
  file_path +:+ ".guardian_protected".
Definition metadata_path (o : t) (file_path : string) : string :=
  os_path_join (lock_directory o) (os_path_basename file_path +:+ ".metadata").
Definition side_path (file_path : string) : string := file_path +:+ ".human_access".

Ltac unfold_vault :=
  unfold unlock_file_for_human, protect_file, verify_human_access,
    generate_human_token, setup_protection_directory, Fernet_encrypt,
    Fernet_decrypt, salt_file, test_file, protected_path, metadata_path,
    side_path in *;
  unfold_monad.






(** C2 (amended): when the first system call of [protect_file] to fault is
    one of the first eight (the read of the file, the three calls that write
    the temporary file, the three that write the metadata, and the rename),
    [protect_file] returns [False] and the file at the path is what it was,
    contents and mode. *)
Theorem protect_failure_keeps_original file_path level o w n rest :
  faults w = replicate n false ++ true :: rest →
  n ≤ 7 →
  (protect_file file_path level (o, w)).1 = Ret false ∧
  fs (protect_file file_path level (o, w)).2.2 !! file_path = fs w !! file_path.
Proof.
  destruct w as [m fl ur cl tt rr rc si us um]. simpl. intros -> Hn.
  unfold_vault. cbn.
  do 8 (destruct n as [|n];
    [by repeat (stuck; cbn; lookups; try (simplify_eq; done))|]).
  lia.
Qed.




End proofs.

(** ** The vault on a concrete world, with the small instance *)

Section examples.
#[local] Existing Instance small_lib.

Definition notes : string := "/home/u/notes.txt".

(** An installation with its salt, and a file to protect. *)
Definition demo_world : World :=
  mkWorld (<["/tmp/guardian_locks/human_salt" := File "0123456789abcdef" 384]>
           (<[notes := File "hello" 420]> ∅))
          [] ["iv-one"; "iv-two"; "iv-three"] [1000000; 2000000; 3000000]%Z
          [] [] [] [] "u" 18.

Definition demo_verified : t * World :=
  (verify_human_access "p@ss" (init, demo_world)).2.

Definition demo_protected : t * World :=
  (protect_file notes "HIGH" demo_verified).2.




(** C2, counterexample: the ninth system call, the [chmod] that follows the
    rename, faults: [protect_file] returns [False], and the file already
    holds the token instead of its plaintext. *)
Lemma chmod_fault_after_rename :
  fs demo_verified.2 !! notes = Some (File "hello" 420) ∧
  (protect_file notes "HIGH"
     (demo_verified.1, set_faults demo_verified.2 (replicate 8 false ++ [true]))).1
    = Ret false ∧
  fs (protect_file notes "HIGH"
        (demo_verified.1, set_faults demo_verified.2 (replicate 8 false ++ [true]))).2.2
    !! notes
    = Some (File (fernet_encrypt (derive_key "0123456789abcdef" "p@ss") 0 "iv-two" "hello")
                 384).
Proof. vm_compute. done. Qed.

(** C2, witness: the fourth system call, the [chmod] of the temporary file,
    faults. *)
Lemma protect_failure_keeps_original_witness :
  (protect_file notes "HIGH"
     (demo_verified.1, set_faults demo_verified.2 [false; false; false; true])).1
    = Ret false ∧
  fs (protect_file notes "HIGH"
        (demo_verified.1, set_faults demo_verified.2 [false; false; false; true])).2.2
    !! notes
    = fs (set_faults demo_verified.2 [false; false; false; true]) !! notes.
Proof.
  apply (protect_failure_keeps_original (L := small_lib) notes "HIGH" demo_verified.1
           (set_faults demo_verified.2 [false; false; false; true]) 3 []).
  - reflexivity.
  - lia.
Defined.

(** Two files are protected, and the token of the second is moved over the
    first. *)
Definition swapped : t * World :=
  (( protect_file "/home/u/other.txt" "HIGH" ;;
     os_rename "/home/u/other.txt" notes )
   (demo_protected.1,
    set_fs demo_protected.2
      (<["/home/u/other.txt" := File "something else" 420]> (fs demo_protected.2)))).2.

(** C4: the digest in the metadata is never compared.  On [swapped],
    [unlock_file_for_human] on the first file succeeds and hands out the
    second file's plaintext, whose digest is not the one the metadata of the
    first file records. *)
Lemma unlock_skips_integrity_check :
  f_data <$> fs swapped.2 !! metadata_path init notes =
    Some (json_dump
      [("original_path", VStr notes);
       ("protection_level", VStr "HIGH");
       ("file_hash", VStr (sha256_hexdigest "hello"));
       ("protected_timestamp", VStr (isoformat 1000000));
       ("guardian_protection", VBool true);
       ("human_authorized", VBool true);
       ("constitution_file", VBool true)]) ∧
  (unlock_file_for_human notes "p@ss" swapped).1 = Ret (VStr (side_path notes)) ∧
  f_data <$> fs (unlock_file_for_human notes "p@ss" swapped).2.2 !! side_path notes =
    Some "something else" ∧
  bool_decide (sha256_hexdigest "something else" = sha256_hexdigest "hello") = false.
Proof. vm_compute. done. Qed.






End examples.

End Vault.

(** * The human-presence gate *)

Module Gate.
Import HumanVerify.

#[local] Arguments choose : simpl never.
#[local] Arguments analyze_response_timing : simpl never.
#[local] Arguments analyze_response_content : simpl never.
#[local] Arguments session_token : simpl never.

Section proofs.
Context {L : PyLib}.

Ltac unfold_gate :=
  unfold multi_challenge_verification, challenge_loop, run_challenge,
    log_failed_attempt, create_human_session, verify_session,
    generate_human_challenge in *;
  unfold_monad.

(** The first readings a world gives of [time.time()] and [random.random()]. *)
Definition first_time (w : World) : float := default 0%float (head (time_time w)).
Definition first_random (w : World) : float := default 0%float (head (random_random w)).

Definition minute : Z := 60 * 1000000.

(** C7: a session is created while the clock reads [T] (the time recorded
    as its creation) and then [T'] (the time its expiry is counted from),
    less than a minute later.  A validation at a time [now] before [T] plus
    one hour, such as [T] plus 59 minutes, returns [True] and keeps the
    session; one at [T] plus 61 minutes or later returns [False] and deletes
    the session from the table. *)
Theorem session_ttl o w T T' now rest :
  clock w = T :: T' :: now :: rest →
  (T ≤ T' < T + minute)%Z →
  let token := session_token (first_time w) (first_random w) in
  let s1 := (create_human_session (o, w)).2 in
  (create_human_session (o, w)).1 = Ret token ∧
  human_sessions s1.1 !! token = Some (mk_session T (T' + hour) true true) ∧
  ((now < T + hour)%Z →
     (verify_session token s1).1 = Ret true ∧
     human_sessions (verify_session token s1).2.1 !! token =
       Some (mk_session T (T' + hour) true true)) ∧
  ((T + 61 * minute ≤ now)%Z →
     (verify_session token s1).1 = Ret false ∧
     human_sessions (verify_session token s1).2.1 !! token = None).
Proof.
  destruct w as [m fl ur cl tt rr rc si us um]. simpl. intros -> [HT HT'].
  unfold first_time, first_random, hour, minute in *.
  unfold_gate. cbn. rewrite lookup_insert_eq. cbn.
  split_and!; [done|done|..]; intros Hnow.
  - destruct (Z.ltb_spec (T' + 3600 * 1000000) now) as [?|?]; [lia|].
    cbn. by rewrite lookup_insert_eq.
  - destruct (Z.ltb_spec (T' + 3600 * 1000000) now) as [?|?]; [|lia].
    cbn. by rewrite lookup_delete_eq.
Qed.

(** C9 (amended): the session token is [session_token], the first 16
    characters of the SHA-256 hex digest of the text made of the readings of
    [time.time()] and [random.random()]: a function of these two values,
    whatever the object, the files and the other inputs are. *)
Theorem session_token_deterministic o w :
  (create_human_session (o, w)).1 = Ret (session_token (first_time w) (first_random w)) ∧
  is_Some (human_sessions (create_human_session (o, w)).2.1
             !! session_token (first_time w) (first_random w)).
Proof.
  destruct w as [m fl ur cl tt rr rc si us um].
  unfold_gate. cbn. split; [done|]. rewrite lookup_insert_eq. by eexists.
Qed.

(** Runs the monad's operations, leaving the library's and the analysis
    functions folded. *)
Ltac run_monad :=
  lazy beta iota zeta delta
    [bind ret raise try_except gets modify io syscall read_file write_file open_w
     fwrite os_chmod os_rename dir_call os_path_exists os_urandom datetime_now
     time_now rand_random rand_choice input getuser
     set_fs set_faults set_urandom set_clock set_time_time set_random_random
     set_random_choice set_stdin
     fs faults urandom clock time_time random_random random_choice stdin user umask
     fst snd].






End proofs.

Section examples.
#[local] Existing Instance small_lib.

(** A session created at noon, with the validation at [now]. *)
Definition noon : Z := 12 * hour.

Definition session_world (now : Z) : World :=
  mkWorld ∅ [] [] [noon; noon + 3; now]%Z [1700000000.25%float] [0.5%float]
          [] [] "u" 18.

Definition noon_token : string :=
  session_token (first_time (session_world 0)) (first_random (session_world 0)).

(** C7, witness: validations 59 and 61 minutes after noon. *)
Lemma session_ttl_witness :
  (verify_session noon_token
     (create_human_session (init, session_world (noon + 59 * minute))).2).1 = Ret true ∧
  (verify_session noon_token
     (create_human_session (init, session_world (noon + 61 * minute))).2).1 = Ret false ∧
  human_sessions
    (verify_session noon_token
       (create_human_session (init, session_world (noon + 61 * minute))).2).2.1
    !! noon_token = None.
Proof.
  split.
  - apply (session_ttl (L := small_lib) init (session_world (noon + 59 * minute))
             noon (noon + 3) (noon + 59 * minute) []).
    + reflexivity.
    + unfold minute. lia.
    + unfold hour, minute. lia.
  - apply (session_ttl (L := small_lib) init (session_world (noon + 61 * minute))
             noon (noon + 3) (noon + 61 * minute) []).
    + reflexivity.
    + unfold minute. lia.
    + lia.
Defined.

(** C9, counterexample: two worlds that agree on the readings of
    [time.time()] and [random.random()] only, and two different objects:
    the tokens are the same, the one [session_token] gives for the two
    readings. *)
Definition other_world : World :=
  mkWorld (<["/etc/hostname" := File "elsewhere" 420]> ∅) [false] ["x"] [7; 8; 9]%Z
          [1700000000.25%float; 3%float] [0.5%float; 0.75%float] [4] ["hi"] "v" 63.

Lemma token_reproduced :
  (create_human_session (init, session_world 0)).1 =
    Ret (session_token 1700000000.25 0.5) ∧
  (create_human_session
     (set_human_sessions init
        (<["0123456789abcdef" := mk_session 1 2 true true]> ∅), other_world)).1 =
    Ret (session_token 1700000000.25 0.5).
Proof. vm_compute. done. Qed.

End examples.
End Gate.

(** * More of the vault: guards, effects and the key's life *)

Module VaultMore.
Import ConstitutionLock Vault.
Section proofs.
Context {L : PyLib}.

Ltac unfold_vault :=
  unfold unlock_file_for_human, protect_file, verify_human_access,
    generate_human_token, setup_protection_directory, Fernet_encrypt,
    Fernet_decrypt, salt_file, test_file, protected_path, metadata_path,
    side_path in *;
  unfold_monad.

(** X1: without a token, or when no file is at the path, [protect_file]
    returns [False] and leaves the object and the world as they are: no
    system call is made, nothing is read from the clock or the random
    source. *)
Theorem protect_file_refused file_path level o w :
  human_token o = None ∨ fs w !! file_path = None →
  protect_file file_path level (o, w) = (Ret false, (o, w)).
Proof.
  intros H. unfold_vault. cbn. destruct (human_token o) as [key|]; [|done].
  destruct H as [?|H]; [done|]. cbn. by rewrite H.
Qed.

(** X2: what a successful [protect_file] changes.  Files other than the
    target, its metadata record and the temporary path are untouched; the
    temporary path holds no file afterwards, whatever was there before; the
    target is left read-only for its owner and the metadata readable and
    writable by the owner alone; and [protected_files] has one more record,
    of the path and the level. *)
Theorem protect_file_effects file_path level o w o' w' :
  protect_file file_path level (o, w) = (Ret true, (o', w')) →
  (∀ p, p ≠ file_path → p ≠ metadata_path o file_path →
        p ≠ protected_path file_path → fs w' !! p = fs w !! p) ∧
  fs w' !! protected_path file_path = None ∧
  f_mode <$> fs w' !! file_path = Some 256%N ∧
  f_mode <$> fs w' !! metadata_path o file_path = Some 384%N ∧
  ∃ record,
    protected_files o' = protected_files o ++ [record] ∧
    dict_get "path" record = Some (VStr file_path) ∧
    dict_get "protection_level" record = Some (VStr level).
Proof.
  destruct w as [m fl ur cl tt rr rc si us um].
  unfold_vault. cbn. intros H.
  repeat (stuck_in H; cbn in H; lookups_in H; try discriminate H).
  all: simplify_eq/=.
  all: split_and!; [intros p ???; by lookups|by lookups..|].
  all: eexists; split_and!; reflexivity.
Qed.


(** X4: [unlock_file_for_human] writes to two paths at most, the side file
    and the test file: whatever its outcome, every other file, the
    protected original among them, is as it was; and it never touches
    [protected_files]. *)
Theorem unlock_writes_side_and_test_only file_path password o w p :
  p ≠ side_path file_path →
  p ≠ test_file o →
  fs (unlock_file_for_human file_path password (o, w)).2.2 !! p = fs w !! p ∧
  protected_files (unlock_file_for_human file_path password (o, w)).2.1 =
    protected_files o.
Proof.
  destruct w as [m fl ur cl tt rr rc si us um].
  intros Hside Htest. unfold_vault. cbn.
  by repeat (stuck; cbn; lookups; try done).
Qed.

(** X5: the key is reproducible from the stored salt.  On a vault without
    a test file, with no system call faulting, [generate_human_token] stores
    the salt it drew, readable and writable by the owner alone, and a
    following [verify_human_access] with the same password succeeds and
    derives the very key [generate_human_token] had set. *)
Theorem generate_then_verify password o w :
  fs w !! test_file o = None →
  no_faults w = true →
  let salt := String.substring 0 16 (default "" (head (urandom w))) in
  let s1 := (generate_human_token password (o, w)).2 in
  (generate_human_token password (o, w)).1 = Ret true ∧
  fs s1.2 !! salt_file o = Some (File salt 384) ∧
  human_token s1.1 = Some (derive_key salt password) ∧
  (verify_human_access password s1).1 = Ret true ∧
  human_token (verify_human_access password s1).2.1 = Some (derive_key salt password).
Proof.
  destruct w as [m fl ur cl tt rr rc si us um]. unfold no_faults. simpl.
  intros Htest Hnf. no_fault_facts Hnf 7.
  unfold salt_file, test_file in *.
  unfold_vault. cbn.
  repeat first [ progress cbn | rewrite Hok | rewrite Hok0 | rewrite Hok1
    | rewrite Hok2 | rewrite Hok3 | rewrite Hok4 | rewrite Hok5
    | rewrite Htest | progress lookups ].
  done.
Qed.

(** X6: [generate_human_token] does not catch what its system calls raise,
    and sets the token before it stores the salt: when the salt file cannot
    be opened it raises [OSError], the object already holds the key of the
    new salt, and the file system still holds the old salt, if any. *)
Theorem generate_sets_token_before_salt password o w :
  faulty (faults w) = true →
  let salt := String.substring 0 16 (default "" (head (urandom w))) in
  (generate_human_token password (o, w)).1 = Raise OSError ∧
  human_token (generate_human_token password (o, w)).2.1 =
    Some (derive_key salt password) ∧
  fs (generate_human_token password (o, w)).2.2 = fs w.
Proof.
  destruct w as [m fl ur cl tt rr rc si us um]. simpl. intros Hf.
  unfold_vault. cbn. by rewrite Hf.
Qed.

(** X7: a new salt shuts the vault.  When the test file holds a token of a
    key derived from another salt, then after [generate_human_token], which
    draws a new salt and leaves the test file alone, [verify_human_access]
    returns [False] for the password just given, be it the old password.
    The cryptography is taken as ideal. *)
Theorem generate_invalidates_test_file `{!IdealCrypto L}
    password old_salt old_password o w token plain :
  fs w !! test_file o = Some token →
  fernet_decrypt (derive_key old_salt old_password) (f_data token) = Some plain →
  String.substring 0 16 (default "" (head (urandom w))) ≠ old_salt →
  no_faults w = true →
  (generate_human_token password (o, w)).1 = Ret true ∧
  (verify_human_access password (generate_human_token password (o, w)).2).1
    = Ret false.
Proof.
  destruct w as [m fl ur cl tt rr rc si us um]. unfold no_faults. simpl.
  intros Htest Hdec Hsalt Hnf. no_fault_facts Hnf 5.
  assert (Hwrong : fernet_decrypt
            (derive_key (String.substring 0 16 (default "" (head ur))) password)
            (f_data token) = None).
  { destruct (fernet_decrypt (derive_key (String.substring 0 16 _) password) _)
      as [plain'|] eqn:E; [|done].
    pose proof (fernet_authentic _ _ _ _ _ Hdec E) as Heq.
    apply kdf_collision_free in Heq as [? _]. by subst. }
  unfold salt_file, test_file in *.
  unfold_vault. cbn.
  repeat first [ progress cbn | rewrite Hok | rewrite Hok0 | rewrite Hok1
    | rewrite Hok2 | rewrite Hok3 | rewrite Hok4
    | rewrite Htest | rewrite Hwrong | progress lookups ].
  done.
Qed.


(** X9: the metadata record of a file is named after the last component of
    its path alone.  When [q] has the basename of [p], a successful
    [protect_file] of [q] leaves at the metadata path of [p] the record of
    [q], with the path and the digest of [q], whatever record of [p] was
    there. *)
Theorem same_basename_shares_metadata p q level o w o' w' :
  os_path_basename p = os_path_basename q →
  protect_file q level (o, w) = (Ret true, (o', w')) →
  ∃ metadata content,
    f_data <$> fs w !! q = Some content ∧
    f_data <$> fs w' !! metadata_path o p = Some (json_dump metadata) ∧
    dict_get "original_path" metadata = Some (VStr q) ∧
    dict_get "file_hash" metadata = Some (VStr (sha256_hexdigest content)).
Proof.
  destruct w as [m fl ur cl tt rr rc si us um].
  intros Hbase. unfold metadata_path. rewrite Hbase.
  unfold_vault. cbn. intros H.
  repeat (stuck_in H; cbn in H; lookups_in H; try discriminate H).
  all: simplify_eq/=.
  all: eexists _, _; split_and!; [done|by lookups|reflexivity..].
Qed.

(** X20: [verify_human_access] never raises: it returns [True] or
    [False].  When it returns [False] the object is as it was, so a token
    set by an earlier verification stays and keeps authorising
    [protect_file]; when it returns [True] a token is set. *)
Theorem verify_never_raises password o w :
  match (verify_human_access password (o, w)).1 with
  | Ret true => is_Some (human_token (verify_human_access password (o, w)).2.1)
  | Ret false => (verify_human_access password (o, w)).2.1 = o
  | Raise _ => False
  end.
Proof.
  destruct w as [m fl ur cl tt rr rc si us um].
  unfold_vault. cbn.
  repeat (stuck; cbn; lookups; try done); by eexists.
Qed.
End proofs.

Section examples.
#[local] Existing Instance small_lib.

(** X1, witness: a file is there, but no password was given yet. *)
Lemma protect_file_refused_witness :
  protect_file notes "HIGH" (init, demo_world) = (Ret false, (init, demo_world)).
Proof.
  apply (protect_file_refused (L := small_lib) notes "HIGH" init demo_world).
  left. reflexivity.
Defined.

(** X2, witness: the protection of [notes]. *)
Lemma protect_file_effects_witness :
  (∀ p, p ≠ notes → p ≠ metadata_path demo_verified.1 notes →
        p ≠ protected_path notes →
        fs demo_protected.2 !! p = fs demo_verified.2 !! p) ∧
  fs demo_protected.2 !! protected_path notes = None ∧
  f_mode <$> fs demo_protected.2 !! notes = Some 256%N ∧
  f_mode <$> fs demo_protected.2 !! metadata_path demo_verified.1 notes = Some 384%N ∧
  ∃ record,
    protected_files demo_protected.1 = protected_files demo_verified.1 ++ [record] ∧
    dict_get "path" record = Some (VStr notes) ∧
    dict_get "protection_level" record = Some (VStr "HIGH").
Proof.
  apply (protect_file_effects (L := small_lib) notes "HIGH"
           demo_verified.1 demo_verified.2 demo_protected.1 demo_protected.2).
  vm_compute. reflexivity.
Defined.

(** X4, witness: the salt file across an unlock of [notes]. *)
Lemma unlock_writes_side_and_test_only_witness :
  fs (unlock_file_for_human notes "p@ss" (demo_protected.1, demo_protected.2)).2.2
    !! salt_file init = fs demo_protected.2 !! salt_file init ∧
  protected_files
    (unlock_file_for_human notes "p@ss" (demo_protected.1, demo_protected.2)).2.1 =
    protected_files demo_protected.1.
Proof.
  apply (unlock_writes_side_and_test_only (L := small_lib) notes "p@ss"
           demo_protected.1 demo_protected.2 (salt_file init)).
  - vm_compute. intros H. discriminate H.
  - vm_compute. intros H. discriminate H.
Defined.

(** A new installation with a file, and entropy for a salt. *)
Definition unsalted_world : World :=
  mkWorld (<[notes := File "hello" 420]> ∅)
          [] ["fedcba9876543210"; "iv-one"] [1000000]%Z [] [] [] [] "u" 18.

(** X5, witness: the first token of [unsalted_world]. *)
Lemma generate_then_verify_witness :
  (generate_human_token "p@ss" (init, unsalted_world)).1 = Ret true ∧
  fs (generate_human_token "p@ss" (init, unsalted_world)).2.2 !! salt_file init =
    Some (File "fedcba9876543210" 384) ∧
  human_token (generate_human_token "p@ss" (init, unsalted_world)).2.1 =
    Some (derive_key "fedcba9876543210" "p@ss") ∧
  (verify_human_access "p@ss"
     (generate_human_token "p@ss" (init, unsalted_world)).2).1 = Ret true ∧
  human_token
    (verify_human_access "p@ss"
       (generate_human_token "p@ss" (init, unsalted_world)).2).2.1 =
    Some (derive_key "fedcba9876543210" "p@ss").
Proof.
  apply (generate_then_verify (L := small_lib) "p@ss" init unsalted_world).
  - reflexivity.
  - reflexivity.
Defined.

(** X6, witness: the first system call of [generate_human_token] faults. *)
Lemma generate_sets_token_before_salt_witness :
  (generate_human_token "p@ss" (init, set_faults unsalted_world [true])).1
    = Raise OSError ∧
  human_token (generate_human_token "p@ss" (init, set_faults unsalted_world [true])).2.1
    = Some (derive_key "fedcba9876543210" "p@ss") ∧
  fs (generate_human_token "p@ss" (init, set_faults unsalted_world [true])).2.2
    = fs (set_faults unsalted_world [true]).
Proof.
  apply (generate_sets_token_before_salt (L := small_lib) "p@ss" init
           (set_faults unsalted_world [true])).
  reflexivity.
Defined.

(** X7, witness: a new token for the vault of [demo_verified], whose test
    file is of the old salt. *)
Lemma generate_invalidates_test_file_witness :
  (generate_human_token "p@ss" (demo_verified.1, demo_verified.2)).1 = Ret true ∧
  (verify_human_access "p@ss"
     (generate_human_token "p@ss" (demo_verified.1, demo_verified.2)).2).1 = Ret false.
Proof.
  apply (generate_invalidates_test_file (L := small_lib) "p@ss" "0123456789abcdef"
           "p@ss" demo_verified.1 demo_verified.2
           (File (fernet_encrypt (derive_key "0123456789abcdef" "p@ss") 0 "iv-one"
                    "HUMAN_VERIFIED") 384)
           "HUMAN_VERIFIED").
  - vm_compute. reflexivity.
  - vm_compute. reflexivity.
  - vm_compute. intros H. discriminate H.
  - reflexivity.
Defined.



(** X9, witness: a second [notes.txt], of another directory. *)
Lemma same_basename_shares_metadata_witness :
  ∃ metadata content,
    f_data <$> fs (set_fs demo_protected.2
                     (<["/home/v/notes.txt" := File "other" 420]> (fs demo_protected.2)))
                 !! "/home/v/notes.txt" = Some content ∧
    f_data <$> fs (protect_file "/home/v/notes.txt" "HIGH"
                     (demo_protected.1,
                      set_fs demo_protected.2
                        (<["/home/v/notes.txt" := File "other" 420]>
                           (fs demo_protected.2)))).2.2
                 !! metadata_path demo_protected.1 notes = Some (json_dump metadata) ∧
    dict_get "original_path" metadata = Some (VStr "/home/v/notes.txt") ∧
    dict_get "file_hash" metadata = Some (VStr (sha256_hexdigest content)).
Proof.
  apply (same_basename_shares_metadata (L := small_lib) notes "/home/v/notes.txt" "HIGH"
           demo_protected.1
           (set_fs demo_protected.2
              (<["/home/v/notes.txt" := File "other" 420]> (fs demo_protected.2)))
           (protect_file "/home/v/notes.txt" "HIGH"
              (demo_protected.1,
               set_fs demo_protected.2
                 (<["/home/v/notes.txt" := File "other" 420]> (fs demo_protected.2)))).2.1).
  - vm_compute. reflexivity.
  - vm_compute. reflexivity.
Defined.
End examples.

End VaultMore.

(** * More of the gate: sessions, scoring and the failure log *)

Module GateMore.
Import HumanVerify Gate.

#[local] Arguments choose : simpl never.
#[local] Arguments analyze_response_timing : simpl never.
#[local] Arguments analyze_response_content : simpl never.
#[local] Arguments session_token : simpl never.

Section proofs.
Context {L : PyLib}.

Ltac unfold_gate :=
  unfold multi_challenge_verification, challenge_loop, run_challenge,
    log_failed_attempt, create_human_session, verify_session,
    generate_human_challenge in *;
  unfold_monad.

(** X10: [verify_session] on a token that is not in the table returns
    [False] and changes nothing; it does not even read the clock. *)
Theorem verify_session_unknown token o w :
  human_sessions o !! token = None →
  verify_session token (o, w) = (Ret false, (o, w)).
Proof. intros H. unfold_gate. cbn. by rewrite H. Qed.

(** X11: [verify_session] on a token of the table reads the clock once and
    returns [True] exactly when the time read is not after the session's
    expiry, the expiry instant itself included.  A valid session leaves the
    table as it is; an expired one is deleted, and only it. *)
Theorem verify_session_known token session o w :
  human_sessions o !! token = Some session →
  let now := default 0%Z (head (clock w)) in
  (verify_session token (o, w)).1 = Ret (bool_decide (now ≤ expires session)%Z) ∧
  human_sessions (verify_session token (o, w)).2.1 =
    (if bool_decide (now ≤ expires session)%Z then human_sessions o
     else delete token (human_sessions o)) ∧
  clock (verify_session token (o, w)).2.2 = tail (clock w).
Proof.
  destruct w as [m fl ur cl tt rr rc si us um]. simpl. intros H.
  unfold_gate. cbn. rewrite H. cbn.
  destruct (Z.ltb_spec (expires session) (default 0%Z (head cl))).
  - by rewrite bool_decide_eq_false_2 by lia.
  - by rewrite bool_decide_eq_true_2 by lia.
Qed.

(** X12: [create_human_session] enters one session, under its token, with
    the two clock readings as creation time and, an hour added, as expiry;
    a session already under that token is replaced, every other session is
    kept, and neither the logs nor the files change. *)
Theorem create_human_session_effects o w :
  let token := session_token (first_time w) (first_random w) in
  let created := default 0%Z (head (clock w)) in
  let now := default 0%Z (head (tail (clock w))) in
  human_sessions (create_human_session (o, w)).2.1 =
    <[token := mk_session created (now + hour) true true]> (human_sessions o) ∧
  verification_log (create_human_session (o, w)).2.1 = verification_log o ∧
  failed_attempts (create_human_session (o, w)).2.1 = failed_attempts o ∧
  fs (create_human_session (o, w)).2.2 = fs w.
Proof.
  destruct w as [m fl ur cl tt rr rc si us um].
  unfold_gate. by cbn.
Qed.

Lemma length_substring_0 (n : nat) (s : string) :
  String.length (String.substring 0 n s) = n `min` String.length s.
Proof.
  revert s. induction n as [|n IH]; intros [|c s]; simpl; try done.
  by rewrite IH.
Qed.

(** X13: a session token has at most 16 characters, and exactly 16 when the
    digest has that many, as a SHA-256 hex digest has. *)
Theorem session_token_length now random :
  String.length (session_token now random) ≤ 16 ∧
  (16 ≤ String.length
          (sha256_hexdigest (float_str now +:+ "_" +:+ float_str random)) →
   String.length (session_token now random) = 16).
Proof.
  unfold session_token. rewrite length_substring_0. lia.
Qed.

(** X14: the confidence [analyze_response_content] reports lies between 0
    and 100; it is 100 less 25 for each indicator found, and 0 from four
    indicators on; and the response is suspicious exactly when an indicator
    was found, that is when the confidence is below 100. *)
Theorem confidence_bounds self response challenge :
  let analysis := analyze_response_content self response challenge in
  let n := Z.of_nat (length (indicators analysis)) in
  (0 ≤ confidence_human analysis ≤ 100)%Z ∧
  confidence_human analysis = (if bool_decide (n ≤ 4)%Z then 100 - 25 * n else 0)%Z ∧
  (c_suspicious analysis = true ↔ indicators analysis ≠ []) ∧
  (c_suspicious analysis = true ↔ (confidence_human analysis < 100)%Z).
Proof.
  unfold analyze_response_content. cbn zeta. simpl.
  destruct (_ ++ _ ++ _) as [|i l]; simpl.
  - repeat split; (done || lia).
  - case_bool_decide; repeat split; (done || lia).
Qed.

(** ** Matching against the lowered response *)

Definition is_upper (c : ascii) : bool :=
  (65 <=? nat_of_ascii c)%nat && (nat_of_ascii c <=? 90)%nat.

Fixpoint has_upper (s : string) : bool :=
  match s with
  | EmptyString => false
  | String c r => is_upper c || has_upper r
  end.

Fixpoint occurs (c : ascii) (s : string) : bool :=
  match s with
  | EmptyString => false
  | String a r => bool_decide (a = c) || occurs c r
  end.

Lemma lower_is_not_upper (c : ascii) : is_upper (ascii_lower c) = false.
Proof.
  unfold ascii_lower, is_upper.
  destruct ((65 <=? nat_of_ascii c)%nat && (nat_of_ascii c <=? 90)%nat) eqn:E.
  - apply andb_true_iff in E as [H1%Nat.leb_le H2%Nat.leb_le].
    rewrite nat_ascii_embedding by lia.
    apply andb_false_iff. right. apply Nat.leb_gt. lia.
  - done.
Qed.

Lemma no_upper_in_lower (c : ascii) (s : string) :
  is_upper c = true → occurs c (str_lower s) = false.
Proof.
  intros Hc. induction s as [|a s IH]; [done|]. simpl. rewrite IH, orb_false_r.
  apply bool_decide_eq_false. intros Heq.
  pose proof (lower_is_not_upper a) as H. rewrite Heq in H. congruence.
Qed.

Lemma startswith_occurs (c : ascii) (p s : string) :
  str_startswith (String c p) s = true → occurs c s = true.
Proof.
  destruct s as [|a s]; [done|]. simpl.
  intros [Heq%bool_decide_eq_true _]%andb_true_iff. subst.
  by rewrite bool_decide_eq_true_2.
Qed.

Lemma startswith_tail (c : ascii) (p s : string) :
  str_startswith (String c p) s = true →
  ∃ a r, s = String a r ∧ str_startswith p r = true.
Proof.
  destruct s as [|a s]; [done|]. simpl.
  intros [_ H]%andb_true_iff. eauto.
Qed.

Lemma occurs_tail (c a : ascii) (s : string) :
  occurs c s = true → occurs c (String a s) = true.
Proof. simpl. intros ->. by rewrite orb_true_r. Qed.

Lemma startswith_all_occur (c : ascii) (p s : string) :
  occurs c p = true → str_startswith p s = true → occurs c s = true.
Proof.
  revert s. induction p as [|a p IH]; intros s; [done|]. simpl.
  intros [Heq%bool_decide_eq_true|Hc]%orb_true_iff Hp.
  - subst. by eapply startswith_occurs.
  - apply startswith_tail in Hp as (b & r & -> & Hp).
    apply occurs_tail. by apply IH.
Qed.

Lemma str_in_all_occur (c : ascii) (needle hay : string) :
  occurs c needle = true → str_in needle hay = true → occurs c hay = true.
Proof.
  intros Hc. induction hay as [|a hay IH]; simpl.
  - rewrite orb_false_r. intros H.
    by pose proof (startswith_all_occur c needle "" Hc H).
  - intros [H|H]%orb_true_iff.
    + by eapply (startswith_all_occur c needle (String a hay)).
    + rewrite IH by done. by rewrite orb_true_r.
Qed.

Lemma has_upper_occurs (s : string) :
  has_upper s = true → ∃ c, is_upper c = true ∧ occurs c s = true.
Proof.
  induction s as [|a s IH]; [done|]. simpl.
  intros [H|H]%orb_true_iff.
  - exists a. by rewrite bool_decide_eq_true_2.
  - destruct (IH H) as (c & ? & Hc). exists c. by rewrite Hc, orb_true_r.
Qed.

(** An indicator with a capital letter in it is never found in a lowered
    response. *)
Lemma upper_indicator_never_found (indicator response : string) :
  has_upper indicator = true → str_in indicator (str_lower response) = false.
Proof.
  intros (c & Hup & Hc)%has_upper_occurs.
  destruct (str_in indicator (str_lower response)) eqn:E; [|done].
  pose proof (str_in_all_occur _ _ _ Hc E) as H.
  by rewrite no_upper_in_lower in H.
Qed.

(** The challenge that asks for a childhood memory. *)
Definition personal_memory : challenge := nth 4 challenges timing_challenge.

(** X15: the indicators of a challenge are looked for in the lowered
    response, so an indicator written with a capital letter is dead: the
    analysis of any response gives what it would give with such indicators
    taken off the challenge.  The catalogue has one, "AI system" of the
    challenge on a childhood memory: a response that says it is an AI system
    is not marked for it. *)
Theorem capital_indicators_are_dead self response challenge l :
  ai_indicators challenge = Some l →
  analyze_response_content self response challenge =
    analyze_response_content self response
      (mk_challenge (c_type challenge) (question challenge)
         (expected_delay challenge) (expected_patterns challenge)
         (Some (List.filter (λ indicator, negb (has_upper indicator)) l))
         (suspicious_if_perfect challenge)) ∧
  (challenge = personal_memory →
   List.filter (λ indicator, negb (has_upper indicator)) l =
     ["simulate"; "training data"; "language model"]).
Proof.
  intros Hl. split.
  - unfold analyze_response_content. simpl. rewrite Hl.
    assert (Heq : List.filter (λ indicator, str_in indicator (str_lower response))
                    (List.filter (λ indicator, negb (has_upper indicator)) l) =
                  List.filter (λ indicator, str_in indicator (str_lower response)) l).
    { clear Hl. induction l as [|i l IH]; [done|]. simpl.
      destruct (has_upper i) eqn:E; simpl.
      - by rewrite upper_indicator_never_found.
      - destruct (str_in i (str_lower response)); simpl; by rewrite IH. }
    by rewrite Heq.
  - intros ->. vm_compute in Hl. by simplify_eq.
Qed.

Lemma str_lower_app (a b : string) :
  str_lower (a +:+ b) = str_lower a +:+ str_lower b.
Proof.
  induction a as [|c a IH]; [done|].
  change (String c a +:+ b) with (String c (a +:+ b)). simpl. by rewrite IH.
Qed.

Lemma startswith_app (p a b : string) :
  str_startswith p a = true → str_startswith p (a +:+ b) = true.
Proof.
  revert a. induction p as [|c p IH]; intros a; [done|].
  destruct a as [|x a]; [done|].
  change (String x a +:+ b) with (String x (a +:+ b)). simpl.
  intros [-> H]%andb_true_iff. by rewrite IH.
Qed.

Lemma str_in_app_l (n a b : string) :
  str_in n a = true → str_in n (a +:+ b) = true.
Proof.
  induction a as [|x a IH].
  - simpl. rewrite orb_false_r. intros H.
    destruct n; [by destruct b|done].
  - change (String x a +:+ b) with (String x (a +:+ b)). simpl.
    intros [H|H]%orb_true_iff.
    + apply (startswith_app n (String x a) b) in H.
      change (String x a +:+ b) with (String x (a +:+ b)) in H. by rewrite H.
    + by rewrite IH, orb_true_r.
Qed.

Lemma str_in_app_r (n a b : string) :
  str_in n b = true → str_in n (a +:+ b) = true.
Proof.
  intros H. induction a as [|x a IH]; [done|].
  change (String x a +:+ b) with (String x (a +:+ b)). simpl.
  by rewrite IH, orb_true_r.
Qed.

(** The sentence the imperfection test asks to be typed. *)
Definition fox : string := "The quick brown fox jumps over the lazy dog".

(** X16: [is_too_perfect] never marks a text that holds the sentence of the
    imperfection test, however long and flawless the text is: the word
    "jumps" holds "um", which is read as casual language.  Nor does it mark
    a text of 50 characters or fewer, or one with a comma. *)
Theorem fox_is_never_too_perfect before after text :
  is_too_perfect (before +:+ fox +:+ after) = false ∧
  (String.length text ≤ 50 ∨ str_in "," text = true → is_too_perfect text = false).
Proof.
  split.
  - unfold is_too_perfect. destruct (50 <? _)%nat; [|done].
    assert (H : str_in "um" (str_lower (before +:+ fox +:+ after)) = true).
    { rewrite !str_lower_app. apply str_in_app_r, str_in_app_l. reflexivity. }
    cbn [existsb]. rewrite H. simpl. by rewrite andb_false_r.
  - unfold is_too_perfect. intros [Hlen|Hcomma].
    + by rewrite (proj2 (Nat.ltb_ge _ _)) by lia.
    + destruct (50 <? _)%nat; [|done].
      assert (H : (str_count "," text <? 1)%nat = false).
      { apply Nat.ltb_ge. clear -Hcomma.
        induction text as [|c text IH]; [done|]. simpl in *.
        destruct (decide (c = ","%char)) as [->|Hne]; [lia|].
        rewrite bool_decide_eq_false_2 in Hcomma by done. simpl in Hcomma.
        destruct text; simpl in *; [done|]. apply IH in Hcomma. lia. }
      rewrite H. by rewrite andb_false_r.
Qed.

Ltac run_monad :=
  lazy beta iota zeta delta
    [bind ret raise try_except gets modify io syscall read_file write_file open_w
     fwrite os_chmod os_rename dir_call os_path_exists os_urandom datetime_now
     time_now rand_random rand_choice input getuser
     set_fs set_faults set_urandom set_clock set_time_time set_random_random
     set_random_choice set_stdin
     fs faults urandom clock time_time random_random random_choice stdin user umask
     fst snd].



(** X18: the challenge issued is always one of the five of the catalogue,
    whatever index the random source gives. *)
Theorem challenge_from_catalogue o w :
  ∃ challenge,
    (generate_human_challenge (o, w)).1 = Ret challenge ∧
    challenge ∈ challenges ∧
    length challenges = 5.
Proof.
  destruct w as [m fl ur cl tt rr rc si us um].
  eexists. split; [reflexivity|]. split; [|done].
  apply list_elem_of_In. unfold choose. apply nth_In.
  apply Nat.mod_upper_bound. done.
Qed.

(** X19: [log_failed_attempt] appends one record to [failed_attempts], of
    the user and marked as a possible AI attempt, before it writes the alert
    file, so the record is there even when the write raises; it touches no
    file but the alert file, named after the time in whole seconds, which
    holds the record when the call returns. *)
Theorem log_failed_attempt_effects o w :
  let alert_file :=
    "/tmp/guardian_ai_access_attempt_" +:+ int_str (float_int (first_time w))
      +:+ ".json" in
  ∃ attempt,
    failed_attempts (log_failed_attempt (o, w)).2.1 = failed_attempts o ++ [attempt] ∧
    dict_get "user" attempt = Some (VStr (user w)) ∧
    dict_get "possible_ai_attempt" attempt = Some (VBool true) ∧
    (∀ p, p ≠ alert_file → fs (log_failed_attempt (o, w)).2.2 !! p = fs w !! p) ∧
    ((log_failed_attempt (o, w)).1 = Ret tt →
     f_data <$> fs (log_failed_attempt (o, w)).2.2 !! alert_file =
       Some (json_dump attempt)).
Proof.
  destruct w as [m fl ur cl tt rr rc si us um].
  unfold first_time. simpl. eexists.
  unfold_gate. cbn.
  repeat (stuck; cbn).
  all: split_and!; [reflexivity|reflexivity|reflexivity| |];
    [intros p Hp; by rewrite ?lookup_insert_ne by done|];
    intros; simplify_eq; by rewrite ?lookup_insert_eq.
Qed.
End proofs.

Section examples.
#[local] Existing Instance small_lib.

(** X10, witness: a token nobody was given. *)
Lemma verify_session_unknown_witness :
  verify_session "0000000000000000" (init, session_world 0) =
    (Ret false, (init, session_world 0)).
Proof.
  apply (verify_session_unknown "0000000000000000" init
           (session_world 0)).
  reflexivity.
Defined.

(** A table with one session, expiring at one o'clock. *)
Definition one_session : t :=
  set_human_sessions init (<["abcdef0123456789" := mk_session noon (noon + hour) true true]> ∅).

(** X11, witness: the validation at the very instant of expiry. *)
Lemma verify_session_known_witness :
  let w := mkWorld ∅ [] [] [noon + hour]%Z [] [] [] [] "u" 18 in
  (verify_session "abcdef0123456789" (one_session, w)).1 = Ret true ∧
  human_sessions (verify_session "abcdef0123456789" (one_session, w)).2.1 =
    human_sessions one_session ∧
  clock (verify_session "abcdef0123456789" (one_session, w)).2.2 = [].
Proof.
  apply (verify_session_known "abcdef0123456789"
           (mk_session noon (noon + hour) true true) one_session
           (mkWorld ∅ [] [] [noon + hour]%Z [] [] [] [] "u" 18)).
  reflexivity.
Defined.

(** X15, witness: the challenge on a childhood memory. *)
Lemma capital_indicators_are_dead_witness :
  analyze_response_content init "I am an AI system" personal_memory =
    analyze_response_content init "I am an AI system"
      (mk_challenge (c_type personal_memory) (question personal_memory)
         (expected_delay personal_memory) (expected_patterns personal_memory)
         (Some (List.filter (λ indicator, negb (has_upper indicator))
                  ["simulate"; "training data"; "language model"; "AI system"]))
         (suspicious_if_perfect personal_memory)) ∧
  (personal_memory = personal_memory →
   List.filter (λ indicator, negb (has_upper indicator))
     ["simulate"; "training data"; "language model"; "AI system"] =
     ["simulate"; "training data"; "language model"]).
Proof.
  apply (capital_indicators_are_dead init "I am an AI system"
           personal_memory
           ["simulate"; "training data"; "language model"; "AI system"]).
  reflexivity.
Defined.

End examples.
End GateMore.

(** * The alert of an access attempt

    [ConstitutionLock.detect_ai_access_attempt]. *)

Module Alerts.
Import ConstitutionLock.
Section methods.
Context {L : PyLib}.




End methods.

Section examples.
#[local] Existing Instance small_lib.

End examples.
End Alerts.
